(** * Double-entry ledger (src/main.py): a shallow embedding and its properties

    The Python class [DoubleEntryLedger] keeps a list of transaction records
    and a dict of balances.  The embedding follows the source line by line:

    - [str] values are [string]s, [int] values are [Z] (Python integers are
      unbounded, so no wrap-around is involved).  Every amount the program
      itself passes is an [int], and the main embedding is the class on
      [int] amounts.  A caller may pass a [float] as well: the module
      [OnFloats] is the class on [float] amounts, with binary64 arithmetic,
      and it shows which properties of the [int] case rest on exact
      arithmetic.
    - a Python [dict] keeps its keys in insertion order, and the program
      observes that order when it iterates [self.balances.items()], so the
      balance table is an association list with the dict's update rule
      (assignment to a present key keeps its position, assignment to a new
      key appends).
    - the methods mutate [self], print, and could raise ([d[k]] raises
      [KeyError] on a missing key); they are written in a small monad that
      threads the object, collects the printed lines and propagates
      exceptions. *)

From Corelib Require Import PrimFloat.
From Stdlib Require Import ZArith List String Ascii Bool Lia DecimalString Sorted.
Import ListNotations.

Set Warnings "-inexact-float".

Open Scope string_scope.
Open Scope Z_scope.
Open Scope list_scope.

(** ** Python built-ins used by the program *)

Module Py.

(** [str(n)] for an [int]: the decimal numeral, with a leading minus sign. *)
Definition str (n : Z) : string := NilZero.string_of_int (Z.to_int n).

(** An f-string is the concatenation of its literal and formatted parts. *)
Definition fstring (parts : list string) : string := String.concat "" parts.

(** [sum(iterable)]: start from [0] and add the items from left to right. *)
Definition sum (xs : list Z) : Z := fold_left Z.add xs 0.

(** [dict] with [str] keys and [int] values, in insertion order. *)
Definition dict : Type := list (string * Z).

(** [{}] *)
Definition empty : dict := [].

(** [d[k]]: [None] stands for [KeyError]. *)
Fixpoint getitem (d : dict) (k : string) : option Z :=
  match d with
  | [] => None
  | (k', v) :: d' => if String.eqb k' k then Some v else getitem d' k
  end.

(** [d.get(k, default)] *)
Definition get (d : dict) (k : string) (default : Z) : Z :=
  match getitem d k with
  | Some v => v
  | None => default
  end.

(** [d[k] = v]: a present key keeps its place, a new key goes last. *)
Fixpoint setitem (d : dict) (k : string) (v : Z) : dict :=
  match d with
  | [] => [(k, v)]
  | (k', v') :: d' =>
      if String.eqb k' k then (k', v) :: d' else (k', v') :: setitem d' k v
  end.

(** [d.items()], [d.keys()], [d.values()] *)
Definition items (d : dict) : list (string * Z) := d.
Definition keys (d : dict) : list string := map fst d.
Definition values (d : dict) : list Z := map snd d.

(** [k in d] *)
Definition contains (d : dict) (k : string) : bool :=
  match getitem d k with
  | Some _ => true
  | None => false
  end.

End Py.

(** ** The objects of the program *)

(** The dict literal built at line 16 always has the same four keys. *)
Record Transaction : Type := mkTransaction {
  description : string;
  from : string;
  to : string;
  amount : Z
}.

(** An instance of [DoubleEntryLedger]: its two attributes. *)
Record DoubleEntryLedger : Type := mkLedger {
  transactions : list Transaction;
  balances : Py.dict
}.

Inductive Exn : Type :=
| KeyError (key : string).

(** ** Methods as computations on [self]

    A method call leaves a value or an exception, the object as the call
    left it, and the lines it printed. *)

Record Run (A : Type) : Type := mkRun {
  value : Exn + A;
  after : DoubleEntryLedger;
  stdout : list string
}.
Arguments mkRun {A} _ _ _.
Arguments value {A} _.
Arguments after {A} _.
Arguments stdout {A} _.

Definition Method (A : Type) : Type := DoubleEntryLedger -> Run A.

Definition ret {A : Type} (a : A) : Method A :=
  fun self => mkRun (inr a) self [].

Definition bind {A B : Type} (m : Method A) (f : A -> Method B) : Method B :=
  fun self =>
    let r := m self in
    match value r with
    | inl e => mkRun (inl e) (after r) (stdout r)
    | inr a =>
        let r' := f a (after r) in
        mkRun (value r') (after r') (stdout r ++ stdout r')
    end.

Definition raise {A : Type} (e : Exn) : Method A :=
  fun self => mkRun (inl e) self [].

(** [print(text)]: [stdout] keeps the text of each call to [print], in
    order; [print()] counts as the empty text. *)
Definition print (text : string) : Method unit :=
  fun self => mkRun (inr tt) self [text].

(** Reading and assigning the attributes of [self]. *)
Definition self_transactions : Method (list Transaction) :=
  fun self => mkRun (inr (transactions self)) self [].

Definition self_balances : Method Py.dict :=
  fun self => mkRun (inr (balances self)) self [].

Definition set_transactions (ts : list Transaction) : Method unit :=
  fun self => mkRun (inr tt) (mkLedger ts (balances self)) [].

Definition set_balances (d : Py.dict) : Method unit :=
  fun self => mkRun (inr tt) (mkLedger (transactions self) d) [].

Notation "x <- m ;; k" := (bind m (fun x => k))
  (at level 61, m at next level, right associativity).
Notation "m ;; k" := (bind m (fun _ => k))
  (at level 61, right associativity).

(** [self.balances[k]] as an expression. *)
Definition balances_getitem (k : string) : Method Z :=
  b <- self_balances ;;
  match Py.getitem b k with
  | Some v => ret v
  | None => raise (KeyError k)
  end.

(** [for x in xs: body(x)] *)
Fixpoint for_each {A : Type} (xs : list A) (body : A -> Method unit) : Method unit :=
  match xs with
  | [] => ret tt
  | x :: xs' => body x ;; for_each xs' body
  end.

(** ** class DoubleEntryLedger *)

(** [__init__] (lines 8-10) *)
Definition __init__ : DoubleEntryLedger := mkLedger [] Py.empty.

(** [record_transfer] (lines 12-31) *)
Definition record_transfer (description from_account to_account : string)
    (amount : Z) : Method unit :=
  let transaction := mkTransaction description from_account to_account amount in
  ts <- self_transactions ;;
  set_transactions (ts ++ [transaction]) ;;
  b <- self_balances ;;
  set_balances (Py.setitem b from_account (Py.get b from_account 0 - amount)) ;;
  b <- self_balances ;;
  set_balances (Py.setitem b to_account (Py.get b to_account 0 + amount)) ;;
  print (Py.fstring ["✓ "; description]) ;;
  now_from <- balances_getitem from_account ;;
  print (Py.fstring ["  "; from_account; ": -"; Py.str amount;
                     " (now "; Py.str now_from; ")"]) ;;
  now_to <- balances_getitem to_account ;;
  print (Py.fstring ["  "; to_account; ": +"; Py.str amount;
                     " (now "; Py.str now_to; ")"]) ;;
  print "".

(** [get_balance] (lines 33-34) *)
Definition get_balance (account : string) : Method Z :=
  b <- self_balances ;;
  ret (Py.get b account 0).

(** [print_balances] (lines 36-40) *)
Definition print_balances : Method unit :=
  print "Current Balances:" ;;
  b <- self_balances ;;
  for_each (Py.items b) (fun '(account, balance) =>
    print (Py.fstring ["  "; account; ": "; Py.str balance; " liters"])) ;;
  print "".

(** [verify_conservation] (lines 42-46) *)
Definition verify_conservation : Method Z :=
  b <- self_balances ;;
  let total := Py.sum (Py.values b) in
  print (Py.fstring ["Total water in system: "; Py.str total; " liters"]) ;;
  ret total.

(** ** The rest of the script *)

(** [show_status] (lines 55-57) *)
Definition show_status : Method unit :=
  verify_conservation ;;
  print_balances.

(** The two sums of lines 106-107, and [expected] of line 108. *)
Definition gained (ts : list Transaction) (account : string) : Z :=
  Py.sum (map amount (filter (fun t => String.eqb (to t) account) ts)).

Definition lost (ts : list Transaction) (account : string) : Z :=
  Py.sum (map amount (filter (fun t => String.eqb (from t) account) ts)).

Definition expected (ts : list Transaction) (account : string) : Z :=
  0 + gained ts account - lost ts account.

(** The accounts collected at lines 101-104, in the order the loop meets
    them: for each transaction its ['from'], then its ['to']. *)
Definition references (ts : list Transaction) : list string :=
  flat_map (fun t => [from t; to t]) ts.

(** [sorted(accounts)] for the set [accounts]: the distinct strings in
    increasing order ([str] compares by code point, which on UTF-8 text is
    the order of the bytes). *)
Fixpoint insert_sorted (x : string) (l : list string) : list string :=
  match l with
  | [] => [x]
  | y :: l' =>
      if String.eqb x y then l
      else if String.ltb x y then x :: l
      else y :: insert_sorted x l'
  end.

Definition sorted_set (xs : list string) : list string :=
  fold_left (fun acc x => insert_sorted x acc) xs [].

(** The list [txns] built at lines 110-115. *)
Definition txns_of (ts : list Transaction) (account : string) : list string :=
  flat_map (fun t =>
      (if String.eqb (to t) account
       then [Py.fstring ["+"; Py.str (amount t)]] else []) ++
      (if String.eqb (from t) account
       then [Py.fstring ["-"; Py.str (amount t)]] else []))
    ts.

Definition newline : string := String (ascii_of_nat 10) EmptyString.

(** [print_dynamic_verification] (lines 98-118) *)
Definition print_dynamic_verification : Method unit :=
  print "=== Verification ===" ;;
  ts <- self_transactions ;;
  let accounts := references ts in
  for_each (sorted_set accounts) (fun account =>
    ts <- self_transactions ;;
    let gained := gained ts account in
    let lost := lost ts account in
    let expected := 0 + gained - lost in
    let txns_str := String.concat ", " (txns_of ts account) in
    print (Py.fstring [account; ": started with 0, gained "; Py.str gained;
                       ", lost "; Py.str lost; " ("; txns_str; ") = ";
                       Py.str expected; " liters"]) ;;
    actual <- get_balance account ;;
    print (Py.fstring [account; " actual: "; Py.str actual; " liters"; newline])).

(** [enumerate(xs, start)] *)
Fixpoint enumerate {A : Type} (xs : list A) (start : Z) : list (Z * A) :=
  match xs with
  | [] => []
  | x :: xs' => (start, x) :: enumerate xs' (start + 1)
  end.

(** The module-level statements (lines 49-132), run on the ledger that line
    49 constructs. *)
Definition script : Method unit :=
  print "=== Water Tank System Demo ===" ;;
  print "Tracking water transfers - every drop must come from somewhere and go somewhere" ;;
  print "" ;;
  record_transfer "Fill Tank A from reservoir" "External_Reservoir" "Tank_A" 100 ;;
  show_status ;;
  record_transfer "Transfer from Tank A to Tank B" "Tank_A" "Tank_B" 30 ;;
  show_status ;;
  record_transfer "Pump water into Tank A" "Water_Pump_Source" "Tank_A" 20 ;;
  show_status ;;
  record_transfer "Tank B leaks to ground" "Tank_B" "Environment" 5 ;;
  show_status ;;
  print_balances ;;
  print_dynamic_verification ;;
  print "=== Conservation Check ===" ;;
  total <- verify_conservation ;;
  print "Notice: Total water = 0 because we track sources as negative" ;;
  print "This makes sense: we 'borrowed' 120L from external sources," ;;
  print "and now have 90+25+5 = 120L in our system" ;;
  print "" ;;
  print "=== Transaction History ===" ;;
  ts <- self_transactions ;;
  for_each (enumerate ts 1) (fun '(i, t) =>
    print (Py.fstring [Py.str i; ". "; description t; ": "; Py.str (amount t);
                       "L from "; from t; " to "; to t])).

(** ** Sequences of method calls

    A client of the class can only call its four methods; a ledger state is
    reachable when some sequence of calls leads to it from a fresh object. *)

Inductive Call : Type :=
| Call_record_transfer (description from_account to_account : string) (amount : Z)
| Call_get_balance (account : string)
| Call_print_balances
| Call_verify_conservation.

Definition perform (c : Call) : Method unit :=
  match c with
  | Call_record_transfer d f t a => record_transfer d f t a
  | Call_get_balance a => get_balance a ;; ret tt
  | Call_print_balances => print_balances
  | Call_verify_conservation => verify_conservation ;; ret tt
  end.

Definition run (calls : list Call) : Method unit := for_each calls perform.

Definition ledger_after (calls : list Call) : DoubleEntryLedger :=
  after (run calls __init__).

Inductive reachable : DoubleEntryLedger -> Prop :=
| reachable_init : reachable __init__
| reachable_call c self : reachable self -> reachable (after (perform c self)).

(** The transfers among a sequence of calls, as the records they leave. *)
Definition transfers_of (calls : list Call) : list Transaction :=
  flat_map (fun c =>
      match c with
      | Call_record_transfer d f t a => [mkTransaction d f t a]
      | _ => []
      end)
    calls.

(** ** Order of first occurrence *)

(** The distinct elements of a list, each at the place of its first
    occurrence. *)
Fixpoint first_seen (l : list string) : list string :=
  match l with
  | [] => []
  | x :: l' => x :: filter (fun y => negb (String.eqb y x)) (first_seen l')
  end.

(** Position of the first occurrence of [x] in [l] ([length l] when absent). *)
Fixpoint index (x : string) (l : list string) : nat :=
  match l with
  | [] => 0
  | y :: l' => if String.eqb y x then 0 else S (index x l')
  end.

(** The balance table after one transfer, written out: the two assignments
    of lines 25-26. *)
Definition transferred (b : Py.dict) (from_account to_account : string)
    (amount : Z) : Py.dict :=
  let b1 := Py.setitem b from_account (Py.get b from_account 0 - amount) in
  Py.setitem b1 to_account (Py.get b1 to_account 0 + amount).

(** The lines [record_transfer] prints (lines 28-31). *)
Definition transfer_report (b' : Py.dict) (d f t : string) (a : Z) : list string :=
  [ Py.fstring ["✓ "; d];
    Py.fstring ["  "; f; ": -"; Py.str a; " (now "; Py.str (Py.get b' f 0); ")"];
    Py.fstring ["  "; t; ": +"; Py.str a; " (now "; Py.str (Py.get b' t 0); ")"];
    "" ].

(** The line [print_balances] prints for one item (line 39). *)
Definition balance_line (item : string * Z) : string :=
  let '(account, balance) := item in
  Py.fstring ["  "; account; ": "; Py.str balance; " liters"].

(** What the enumeration of the balance table shows for an account: the
    balance of its item, or [None] when no item carries the account. *)
Definition listed (self : DoubleEntryLedger) (account : string) : option Z :=
  option_map snd
    (find (fun item => String.eqb (fst item) account) (Py.items (balances self))).

(** The enumeration shows the same thing for two accounts. *)
Definition enumeration_cannot_distinguish (self : DoubleEntryLedger)
    (A B : string) : Prop :=
  listed self A = listed self B.

(** How many of the calls are calls to [record_transfer]. *)
Definition is_record_transfer (c : Call) : bool :=
  match c with
  | Call_record_transfer _ _ _ _ => true
  | _ => false
  end.

Definition number_of_transfers (calls : list Call) : nat :=
  List.length (filter is_record_transfer calls).

(** The four transfers of the worked scenario, one state after each. *)
Definition scenario1 : DoubleEntryLedger :=
  after (record_transfer "fill" "Reservoir" "TankA" 100 __init__).
Definition scenario2 : DoubleEntryLedger :=
  after (record_transfer "move" "TankA" "TankB" 30 scenario1).
Definition scenario3 : DoubleEntryLedger :=
  after (record_transfer "pump" "Pump" "TankA" 20 scenario2).
Definition scenario4 : DoubleEntryLedger :=
  after (record_transfer "leak" "TankB" "Environment" 5 scenario3).

(** Two transfers that bring both accounts back to zero. *)
Definition there_and_back : list Call :=
  [ Call_record_transfer "there" "A" "B" 5;
    Call_record_transfer "back" "B" "A" 5 ].

(** ** The reports, line by line *)

(** The two texts [print_dynamic_verification] prints for one account
    (lines 117-118), [actual] being what [get_balance] returned. *)
Definition verification_lines (ts : list Transaction) (actual : Z)
    (account : string) : list string :=
  [ Py.fstring [account; ": started with 0, gained "; Py.str (gained ts account);
                ", lost "; Py.str (lost ts account); " (";
                String.concat ", " (txns_of ts account); ") = ";
                Py.str (0 + gained ts account - lost ts account); " liters"];
    Py.fstring [account; " actual: "; Py.str actual; " liters"; newline] ].

(** The text printed for one numbered transaction (line 132). *)
Definition history_line (item : Z * Transaction) : string :=
  let '(i, t) := item in
  Py.fstring [Py.str i; ". "; description t; ": "; Py.str (amount t);
              "L from "; from t; " to "; to t].

(** The last statements of the script (lines 130-132). *)
Definition print_transaction_history : Method unit :=
  print "=== Transaction History ===" ;;
  ts <- self_transactions ;;
  for_each (enumerate ts 1) (fun '(i, t) =>
    print (Py.fstring [Py.str i; ". "; description t; ": "; Py.str (amount t);
                       "L from "; from t; " to "; to t])).


(** All amounts of a history are non-negative. *)
Definition amounts_nonnegative (ts : list Transaction) : Prop :=
  Forall (fun t => 0 <= amount t) ts.

(** The entries of [txns] (lines 110-115) before they are turned into text:
    [true] marks an amount received, [false] an amount sent. *)
Definition entries (ts : list Transaction) (account : string) : list (bool * Z) :=
  flat_map (fun t =>
      (if String.eqb (to t) account then [(true, amount t)] else []) ++
      (if String.eqb (from t) account then [(false, amount t)] else []))
    ts.

Definition entry_text (e : bool * Z) : string :=
  let '(received, a) := e in
  Py.fstring [if received then "+" else "-"; Py.str a].

Definition entry_value (e : bool * Z) : Z :=
  let '(received, a) := e in
  if received then a else - a.

(** The four calls to [record_transfer] the script makes (lines 60-92). *)
Definition script_transfers : list Call :=
  [ Call_record_transfer "Fill Tank A from reservoir" "External_Reservoir" "Tank_A" 100;
    Call_record_transfer "Transfer from Tank A to Tank B" "Tank_A" "Tank_B" 30;
    Call_record_transfer "Pump water into Tank A" "Water_Pump_Source" "Tank_A" 20;
    Call_record_transfer "Tank B leaks to ground" "Tank_B" "Environment" 5 ].

(** ** Invariants of the pair (history, balance table) *)

(** The balance table agrees with the history on every account. *)
Definition reconstructs (self : DoubleEntryLedger) : Prop :=
  forall A, Py.get (balances self) A 0 =
            gained (transactions self) A - lost (transactions self) A.

(** The keys of the balance table are the accounts of the history, in the
    order the history first mentions them. *)
Definition ordered (self : DoubleEntryLedger) : Prop :=
  Py.keys (balances self) = first_seen (references (transactions self)).

(** ** The class on [float] amounts

    Nothing in the class asks for an [int]: [record_transfer] only
    subtracts the amount from one balance and adds it to another (lines
    25-26), so a caller may as well pass a [float].  Python's [float] is
    the binary64 format, which is the primitive [float] here, with the same
    round-to-nearest-even [+] and [-].  This module is the class once more
    with [float] in the place of [int]:

    - where an [int] meets a [float] Python converts the [int] first, so the
      default [0] of [get(k, 0)] and the start [0] of [sum] enter the
      arithmetic as [0.0], and they are written so;
    - [==] on floats is [PrimFloat.eqb];
    - the text of a float is not modelled: a formatted text is kept as the
      list of its parts, a float among them as the float itself. *)

Module OnFloats.

Import PrimFloat.
#[local] Open Scope float_scope.

(** [dict] with [str] keys and [float] values, in insertion order. *)
Definition dict : Type := list (string * float).

Definition empty : dict := [].

Fixpoint getitem (d : dict) (k : string) : option float :=
  match d with
  | [] => None
  | (k', v) :: d' => if String.eqb k' k then Some v else getitem d' k
  end.

Definition get (d : dict) (k : string) (default : float) : float :=
  match getitem d k with
  | Some v => v
  | None => default
  end.

Fixpoint setitem (d : dict) (k : string) (v : float) : dict :=
  match d with
  | [] => [(k, v)]
  | (k', v') :: d' =>
      if String.eqb k' k then (k', v) :: d' else (k', v') :: setitem d' k v
  end.

Definition values (d : dict) : list float := map snd d.

(** [sum(iterable)]: start from [0] and add the items from left to right,
    each addition rounded. *)
Definition sum (xs : list float) : float := fold_left add xs 0.

(** From CPython 3.12 on, [sum] adds floats with Neumaier's compensation:
    next to the running total it keeps the rounding errors of the
    additions and adds them at the end. *)
Definition compensated_step (acc : float * float) (x : float) : float * float :=
  let '(f_result, c) := acc in
  let t := f_result + x in
  if abs x <=? abs f_result
  then (t, c + ((f_result - t) + x))
  else (t, c + ((x - t) + f_result)).

Definition sum_compensated (xs : list float) : float :=
  match xs with
  | [] => 0
  | x :: xs' =>
      let '(f_result, c) := fold_left compensated_step xs' (0 + x, 0) in
      if negb (c =? 0) && is_finite c then f_result + c else f_result
  end.

(** A part of an f-string: literal text, a formatted [str], or a formatted
    float. *)
Inductive Part : Type :=
| Text (s : string)
| Number (x : float).

Record Transaction : Type := mkTransaction {
  description : string;
  from : string;
  to : string;
  amount : float
}.

Record DoubleEntryLedger : Type := mkLedger {
  transactions : list Transaction;
  balances : dict
}.

Record Run (A : Type) : Type := mkRun {
  value : Exn + A;
  after : DoubleEntryLedger;
  stdout : list (list Part)
}.
Arguments mkRun {A} _ _ _.
Arguments value {A} _.
Arguments after {A} _.
Arguments stdout {A} _.

Definition Method (A : Type) : Type := DoubleEntryLedger -> Run A.

Definition ret {A : Type} (a : A) : Method A :=
  fun self => mkRun (inr a) self [].

Definition bind {A B : Type} (m : Method A) (f : A -> Method B) : Method B :=
  fun self =>
    let r := m self in
    match value r with
    | inl e => mkRun (inl e) (after r) (stdout r)
    | inr a =>
        let r' := f a (after r) in
        mkRun (value r') (after r') (stdout r ++ stdout r')
    end.

Definition raise {A : Type} (e : Exn) : Method A :=
  fun self => mkRun (inl e) self [].

Definition print (text : list Part) : Method unit :=
  fun self => mkRun (inr tt) self [text].

Definition self_transactions : Method (list Transaction) :=
  fun self => mkRun (inr (transactions self)) self [].

Definition self_balances : Method dict :=
  fun self => mkRun (inr (balances self)) self [].

Definition set_transactions (ts : list Transaction) : Method unit :=
  fun self => mkRun (inr tt) (mkLedger ts (balances self)) [].

Definition set_balances (d : dict) : Method unit :=
  fun self => mkRun (inr tt) (mkLedger (transactions self) d) [].

Declare Scope float_method_scope.
#[local] Notation "x <- m ;; k" := (bind m (fun x => k))
  (at level 61, m at next level, right associativity) : float_method_scope.
#[local] Notation "m ;; k" := (bind m (fun _ => k))
  (at level 61, right associativity) : float_method_scope.
#[local] Open Scope float_method_scope.

Definition balances_getitem (k : string) : Method float :=
  b <- self_balances ;;
  match getitem b k with
  | Some v => ret v
  | None => raise (KeyError k)
  end.

(** [__init__] (lines 8-10) *)
Definition __init__ : DoubleEntryLedger := mkLedger [] empty.

(** [record_transfer] (lines 12-31) *)
Definition record_transfer (description from_account to_account : string)
    (amount : float) : Method unit :=
  let transaction := mkTransaction description from_account to_account amount in
  ts <- self_transactions ;;
  set_transactions (ts ++ [transaction]) ;;
  b <- self_balances ;;
  set_balances (setitem b from_account (get b from_account 0 - amount)) ;;
  b <- self_balances ;;
  set_balances (setitem b to_account (get b to_account 0 + amount)) ;;
  print [Text "✓ "; Text description] ;;
  now_from <- balances_getitem from_account ;;
  print [Text "  "; Text from_account; Text ": -"; Number amount;
         Text " (now "; Number now_from; Text ")"] ;;
  now_to <- balances_getitem to_account ;;
  print [Text "  "; Text to_account; Text ": +"; Number amount;
         Text " (now "; Number now_to; Text ")"] ;;
  print [].

(** [get_balance] (lines 33-34) *)
Definition get_balance (account : string) : Method float :=
  b <- self_balances ;;
  ret (get b account 0).

(** [verify_conservation] (lines 42-46) *)
Definition verify_conservation : Method float :=
  b <- self_balances ;;
  let total := sum (values b) in
  print [Text "Total water in system: "; Number total; Text " liters"] ;;
  ret total.

(** The two sums of lines 106-107, and [expected] of line 108. *)
Definition gained (ts : list Transaction) (account : string) : float :=
  sum (map amount (filter (fun t => String.eqb (to t) account) ts)).

Definition lost (ts : list Transaction) (account : string) : float :=
  sum (map amount (filter (fun t => String.eqb (from t) account) ts)).

Definition expected (ts : list Transaction) (account : string) : float :=
  0 + gained ts account - lost ts account.

(** Two transfers out of one account, of 0.1 and of 0.2. *)
Definition two_withdrawals : Method unit :=
  record_transfer "first" "A" "B" 0.1 ;;
  record_transfer "second" "A" "C" 0.2.

(** An account that receives 0.1, sends 0.3 and receives 0.2. *)
Definition in_out_in : Method unit :=
  record_transfer "in" "X" "A" 0.1 ;;
  record_transfer "out" "A" "Y" 0.3 ;;
  record_transfer "in again" "X" "A" 0.2.

(** An account holding 0.1, and one holding 1.0. *)
Definition holding_a_tenth : DoubleEntryLedger :=
  after (record_transfer "fill" "X" "A" 0.1 __init__).

Definition holding_one : DoubleEntryLedger :=
  after (record_transfer "fill" "X" "A" 1.0 __init__).

End OnFloats.

(** * Properties *)

(** ** The dict operations *)

Section DictFacts.

Variable d : Py.dict.
Variables (k : string) (v : Z).

Lemma getitem_setitem_same : Py.getitem (Py.setitem d k v) k = Some v.
Proof.
  induction d as [|[k' v'] d' IH]; simpl.
  - now rewrite String.eqb_refl.
  - destruct (String.eqb k' k) eqn:E; simpl; rewrite E; auto.
Qed.

Lemma getitem_setitem_other k' :
  k' <> k -> Py.getitem (Py.setitem d k v) k' = Py.getitem d k'.
Proof.
  intros Hne.
  induction d as [|[k0 v0] d' IH]; simpl.
  - destruct (String.eqb_spec k k'); congruence.
  - destruct (String.eqb_spec k0 k) as [->|Hk]; simpl.
    + destruct (String.eqb_spec k k'); congruence.
    + now rewrite IH.
Qed.

Lemma get_setitem_same default : Py.get (Py.setitem d k v) k default = v.
Proof. unfold Py.get. now rewrite getitem_setitem_same. Qed.

Lemma get_setitem_other k' default :
  k' <> k -> Py.get (Py.setitem d k v) k' default = Py.get d k' default.
Proof. intros Hne. unfold Py.get. now rewrite getitem_setitem_other. Qed.

Lemma getitem_In_keys : Py.getitem d k <> None <-> In k (Py.keys d).
Proof.
  induction d as [|[k0 v0] d' IH]; simpl.
  - tauto.
  - destruct (String.eqb_spec k0 k) as [->|Hk].
    + split; [auto | discriminate].
    + rewrite IH. tauto.
Qed.

Lemma keys_setitem :
  Py.keys (Py.setitem d k v) =
  if Py.contains d k then Py.keys d else Py.keys d ++ [k].
Proof.
  unfold Py.contains.
  induction d as [|[k0 v0] d' IH]; simpl; auto.
  destruct (String.eqb_spec k0 k) as [->|Hk]; simpl; auto.
  rewrite IH. now destruct (Py.getitem d' k).
Qed.

End DictFacts.

Lemma contains_In_keys d k : Py.contains d k = true <-> In k (Py.keys d).
Proof.
  rewrite <- getitem_In_keys. unfold Py.contains.
  destruct (Py.getitem d k); split; congruence.
Qed.

Lemma contains_false_keys d k : Py.contains d k = false <-> ~ In k (Py.keys d).
Proof.
  rewrite <- contains_In_keys. destruct (Py.contains d k); split; congruence.
Qed.

(** ** [sum] *)

Lemma fold_add_shift xs a : fold_left Z.add xs a = a + Py.sum xs.
Proof.
  unfold Py.sum. revert a.
  induction xs as [|x xs IH]; intros a; simpl.
  - lia.
  - rewrite (IH (a + x)), (IH x). lia.
Qed.

Lemma sum_nil : Py.sum [] = 0.
Proof. reflexivity. Qed.

Lemma sum_cons x xs : Py.sum (x :: xs) = x + Py.sum xs.
Proof. unfold Py.sum at 1. simpl. now rewrite fold_add_shift. Qed.

Lemma sum_app xs ys : Py.sum (xs ++ ys) = Py.sum xs + Py.sum ys.
Proof.
  induction xs as [|x xs IH].
  - rewrite sum_nil. simpl. lia.
  - rewrite <- app_comm_cons, !sum_cons, IH. lia.
Qed.

Lemma sum_values_setitem d k v :
  Py.sum (Py.values (Py.setitem d k v)) =
  Py.sum (Py.values d) - Py.get d k 0 + v.
Proof.
  unfold Py.get.
  induction d as [|[k0 v0] d' IH]; simpl.
  - change (Py.sum [v]) with v. change (Py.sum []) with 0. lia.
  - destruct (String.eqb k0 k); simpl; rewrite !sum_cons.
    + lia.
    + rewrite IH. lia.
Qed.

(** ** One transfer on the balance table *)

Lemma sum_values_transferred b f t a :
  Py.sum (Py.values (transferred b f t a)) = Py.sum (Py.values b).
Proof.
  unfold transferred. cbv zeta.
  rewrite !sum_values_setitem.
  destruct (String.eqb_spec t f) as [->|Hne].
  - rewrite get_setitem_same. lia.
  - rewrite get_setitem_other by assumption. lia.
Qed.

Lemma get_transferred b f t a k :
  Py.get (transferred b f t a) k 0 =
  Py.get b k 0 - (if String.eqb f k then a else 0)
               + (if String.eqb t k then a else 0).
Proof.
  unfold transferred. cbv zeta.
  destruct (String.eqb_spec t k) as [->|Htk].
  - rewrite get_setitem_same.
    destruct (String.eqb_spec f k) as [->|Hfk].
    + rewrite get_setitem_same. lia.
    + rewrite get_setitem_other by congruence. lia.
  - rewrite get_setitem_other by congruence.
    destruct (String.eqb_spec f k) as [->|Hfk].
    + rewrite get_setitem_same. lia.
    + rewrite get_setitem_other by congruence. lia.
Qed.

Lemma getitem_transferred_other b f t a k :
  k <> f -> k <> t ->
  Py.getitem (transferred b f t a) k = Py.getitem b k.
Proof.
  intros Hf Ht. unfold transferred. cbv zeta.
  now rewrite !getitem_setitem_other.
Qed.

Lemma getitem_transferred_from b f t a :
  Py.getitem (transferred b f t a) f = Some (Py.get (transferred b f t a) f 0).
Proof.
  unfold Py.get, transferred. cbv zeta.
  destruct (String.eqb_spec f t) as [->|Hne].
  - now rewrite getitem_setitem_same.
  - rewrite getitem_setitem_other by assumption.
    now rewrite getitem_setitem_same.
Qed.

Lemma getitem_transferred_to b f t a :
  Py.getitem (transferred b f t a) t = Some (Py.get (transferred b f t a) t 0).
Proof.
  unfold Py.get, transferred. cbv zeta.
  now rewrite getitem_setitem_same.
Qed.

(** ** What each method does to [self] *)

Lemma bind_run {A B : Type} (m : Method A) (f : A -> Method B)
    self a s out v s' out' :
  m self = mkRun (inr a) s out ->
  f a s = mkRun v s' out' ->
  bind m f self = mkRun v s' (out ++ out').
Proof.
  intros Hm Hf. unfold bind. rewrite Hm. cbv zeta. simpl. now rewrite Hf.
Qed.

Lemma balances_getitem_run k v self :
  Py.getitem (balances self) k = Some v ->
  balances_getitem k self = mkRun (inr v) self [].
Proof.
  intros H. unfold balances_getitem, bind, self_balances. cbv zeta. simpl.
  now rewrite H.
Qed.

Ltac run_step := cbv beta; eapply bind_run; [reflexivity|].

Lemma record_transfer_run d f t a self :
  record_transfer d f t a self =
  let b' := transferred (balances self) f t a in
  mkRun (inr tt)
        (mkLedger (transactions self ++ [mkTransaction d f t a]) b')
        (transfer_report b' d f t a).
Proof.
  cbv zeta. unfold record_transfer.
  etransitivity.
  - do 7 run_step.
    cbv beta. eapply bind_run.
    { apply balances_getitem_run.
      exact (getitem_transferred_from (balances self) f t a). }
    run_step.
    cbv beta. eapply bind_run.
    { apply balances_getitem_run.
      exact (getitem_transferred_to (balances self) f t a). }
    run_step.
    reflexivity.
  - reflexivity.
Qed.

Lemma get_balance_run account self :
  get_balance account self = mkRun (inr (Py.get (balances self) account 0)) self [].
Proof. reflexivity. Qed.

Lemma verify_conservation_run self :
  verify_conservation self =
  let total := Py.sum (Py.values (balances self)) in
  mkRun (inr total) self
        [Py.fstring ["Total water in system: "; Py.str total; " liters"]].
Proof. reflexivity. Qed.

Lemma for_each_balance_line (items : list (string * Z)) self :
  for_each items (fun '(account, balance) =>
    print (Py.fstring ["  "; account; ": "; Py.str balance; " liters"])) self =
  mkRun (inr tt) self (map balance_line items).
Proof.
  induction items as [|[account balance] items IH].
  - reflexivity.
  - change (map balance_line ((account, balance) :: items))
      with ([balance_line (account, balance)] ++ map balance_line items).
    cbn [for_each]. eapply bind_run; [reflexivity | exact IH].
Qed.

Lemma print_balances_run self :
  print_balances self =
  mkRun (inr tt) self
        ("Current Balances:" :: map balance_line (Py.items (balances self)) ++ [""]).
Proof.
  unfold print_balances.
  etransitivity.
  - do 2 run_step. cbv beta.
    eapply bind_run; [apply for_each_balance_line | reflexivity].
  - reflexivity.
Qed.

(** ** Sequences of calls *)

Lemma perform_value c self : value (perform c self) = inr tt.
Proof.
  destruct c as [d f t a|a| |]; cbn [perform].
  - now rewrite record_transfer_run.
  - reflexivity.
  - now rewrite print_balances_run.
  - reflexivity.
Qed.

Lemma perform_after c self :
  after (perform c self) =
  match c with
  | Call_record_transfer d f t a =>
      mkLedger (transactions self ++ [mkTransaction d f t a])
               (transferred (balances self) f t a)
  | _ => self
  end.
Proof.
  destruct c as [d f t a|a| |]; cbn [perform].
  - now rewrite record_transfer_run.
  - reflexivity.
  - now rewrite print_balances_run.
  - reflexivity.
Qed.

Lemma run_cons c cs self :
  value (run (c :: cs) self) = value (run cs (after (perform c self))) /\
  after (run (c :: cs) self) = after (run cs (after (perform c self))).
Proof.
  unfold run. cbn [for_each]. unfold bind. cbv zeta.
  rewrite perform_value. split; reflexivity.
Qed.

Lemma run_value cs self : value (run cs self) = inr tt.
Proof.
  revert self. induction cs as [|c cs IH]; intros self.
  - reflexivity.
  - destruct (run_cons c cs self) as [-> _]. apply IH.
Qed.

Lemma run_app cs1 cs2 self :
  after (run (cs1 ++ cs2) self) = after (run cs2 (after (run cs1 self))).
Proof.
  revert self. induction cs1 as [|c cs1 IH]; intros self.
  - reflexivity.
  - rewrite <- app_comm_cons.
    destruct (run_cons c (cs1 ++ cs2) self) as [_ ->].
    destruct (run_cons c cs1 self) as [_ ->].
    apply IH.
Qed.

Lemma run_single c self : after (run [c] self) = after (perform c self).
Proof. destruct (run_cons c [] self) as [_ ->]. reflexivity. Qed.

Lemma ledger_after_nil : ledger_after [] = __init__.
Proof. reflexivity. Qed.

Lemma ledger_after_snoc cs c :
  ledger_after (cs ++ [c]) = after (perform c (ledger_after cs)).
Proof. unfold ledger_after. now rewrite run_app, run_single. Qed.

Lemma reachable_ledger_after cs : reachable (ledger_after cs).
Proof.
  induction cs as [|c cs IH] using rev_ind.
  - constructor.
  - rewrite ledger_after_snoc. now constructor.
Qed.

Lemma reachable_is_ledger_after self :
  reachable self -> exists cs, self = ledger_after cs.
Proof.
  induction 1 as [|c self _ [cs ->]].
  - now exists [].
  - exists (cs ++ [c]). now rewrite ledger_after_snoc.
Qed.

Lemma transfers_of_app cs1 cs2 :
  transfers_of (cs1 ++ cs2) = transfers_of cs1 ++ transfers_of cs2.
Proof. unfold transfers_of. apply flat_map_app. Qed.

(** The history holds the transfers that were called, in order. *)
Lemma transactions_ledger_after cs :
  transactions (ledger_after cs) = transfers_of cs.
Proof.
  induction cs as [|c cs IH] using rev_ind.
  - reflexivity.
  - rewrite ledger_after_snoc, perform_after, transfers_of_app.
    destruct c; simpl; rewrite IH; auto using app_nil_r.
Qed.

(** ** Invariants of the pair (history, balance table) *)

Lemma gained_snoc ts t A :
  gained (ts ++ [t]) A = gained ts A + (if String.eqb (to t) A then amount t else 0).
Proof.
  unfold gained. rewrite filter_app, map_app, sum_app. simpl.
  destruct (String.eqb (to t) A); simpl.
  - change (Py.sum [amount t]) with (amount t). reflexivity.
  - reflexivity.
Qed.

Lemma lost_snoc ts t A :
  lost (ts ++ [t]) A = lost ts A + (if String.eqb (from t) A then amount t else 0).
Proof.
  unfold lost. rewrite filter_app, map_app, sum_app. simpl.
  destruct (String.eqb (from t) A); simpl.
  - change (Py.sum [amount t]) with (amount t). reflexivity.
  - reflexivity.
Qed.

Lemma reconstructs_init : reconstructs __init__.
Proof. intros A. reflexivity. Qed.

Lemma reconstructs_perform c self :
  reconstructs self -> reconstructs (after (perform c self)).
Proof.
  intros H. rewrite perform_after.
  destruct c as [d f t a|a| |]; auto.
  intros A. simpl.
  rewrite get_transferred, gained_snoc, lost_snoc, H. simpl. lia.
Qed.

Lemma reconstructs_reachable self : reachable self -> reconstructs self.
Proof.
  induction 1; auto using reconstructs_init, reconstructs_perform.
Qed.

Lemma sum_values_perform c self :
  Py.sum (Py.values (balances (after (perform c self)))) =
  Py.sum (Py.values (balances self)).
Proof.
  rewrite perform_after. destruct c; auto.
  simpl. apply sum_values_transferred.
Qed.

Lemma sum_values_reachable self :
  reachable self -> Py.sum (Py.values (balances self)) = 0.
Proof.
  induction 1 as [|c self _ IH].
  - reflexivity.
  - now rewrite sum_values_perform.
Qed.

(** ** Order of first occurrence *)

Lemma In_first_seen l x : In x (first_seen l) <-> In x l.
Proof.
  induction l as [|a l IH]; simpl.
  - tauto.
  - rewrite filter_In, IH, negb_true_iff.
    destruct (String.eqb_spec x a) as [->|Hne]; split; intros H; auto.
    + destruct H as [H|[H _]]; auto.
    + destruct H as [H|H]; [congruence | auto].
Qed.

Lemma first_seen_snoc l x :
  first_seen (l ++ [x]) =
  if in_dec string_dec x l then first_seen l else first_seen l ++ [x].
Proof.
  induction l as [|a l IH].
  - reflexivity.
  - destruct (in_dec string_dec x (a :: l)) as [Hin|Hout];
      rewrite <- app_comm_cons; cbn [first_seen]; rewrite IH;
      destruct (in_dec string_dec x l) as [Hl|Hl]; try reflexivity.
    + destruct Hin as [->|Hin]; [|contradiction].
      rewrite filter_app. simpl. rewrite String.eqb_refl. simpl.
      now rewrite app_nil_r.
    + exfalso. apply Hout. now right.
    + rewrite filter_app. simpl.
      destruct (String.eqb_spec x a) as [->|Hne].
      * exfalso. apply Hout. now left.
      * reflexivity.
Qed.

Lemma keys_setitem_first_seen d k v l :
  Py.keys d = first_seen l ->
  Py.keys (Py.setitem d k v) = first_seen (l ++ [k]).
Proof.
  intros H. rewrite keys_setitem, first_seen_snoc.
  destruct (Py.contains d k) eqn:E; destruct (in_dec string_dec k l) as [Hl|Hl];
    try congruence.
  - apply contains_In_keys in E. rewrite H, In_first_seen in E. contradiction.
  - apply contains_false_keys in E. rewrite H, In_first_seen in E. contradiction.
Qed.

Lemma references_snoc ts t :
  references (ts ++ [t]) = (references ts ++ [from t]) ++ [to t].
Proof.
  unfold references. rewrite flat_map_app. simpl.
  now rewrite <- app_assoc.
Qed.

Lemma ordered_perform c self :
  ordered self -> ordered (after (perform c self)).
Proof.
  unfold ordered. intros H. rewrite perform_after.
  destruct c as [d f t a|a| |]; auto.
  simpl. rewrite references_snoc. unfold transferred. cbv zeta.
  now apply keys_setitem_first_seen, keys_setitem_first_seen.
Qed.

Lemma ordered_reachable self : reachable self -> ordered self.
Proof.
  induction 1 as [|c self _ IH].
  - reflexivity.
  - now apply ordered_perform.
Qed.

Lemma index_filter p l x y :
  p x = true -> p y = true ->
  (index x (filter p l) < index y (filter p l))%nat <->
  (index x l < index y l)%nat.
Proof.
  intros Hx Hy.
  induction l as [|a l IH]; simpl.
  - tauto.
  - destruct (p a) eqn:Ha; simpl.
    + destruct (String.eqb a x), (String.eqb a y); lia.
    + destruct (String.eqb_spec a x) as [->|_]; [congruence|].
      destruct (String.eqb_spec a y) as [->|_]; [congruence|].
      lia.
Qed.

Lemma index_first_seen l x y :
  (index x (first_seen l) < index y (first_seen l))%nat <->
  (index x l < index y l)%nat.
Proof.
  induction l as [|a l IH]; simpl.
  - tauto.
  - destruct (String.eqb_spec a x) as [Ex|Hx];
      destruct (String.eqb_spec a y) as [Ey|Hy]; try lia.
    rewrite <- !Nat.succ_lt_mono, <- IH.
    apply index_filter; apply negb_true_iff, String.eqb_neq; congruence.
Qed.

Lemma index_inj l x y : In x l -> index x l = index y l -> x = y.
Proof.
  induction l as [|a l IH]; simpl; intros Hin Heq.
  - contradiction.
  - destruct (String.eqb_spec a x) as [Ex|Hx];
      destruct (String.eqb_spec a y) as [Ey|Hy]; try congruence; try lia.
    apply IH; [tauto | lia].
Qed.

(** ** Accounts the history never mentions *)

Lemma gained_unreferenced ts A : ~ In A (references ts) -> gained ts A = 0.
Proof.
  unfold gained, references.
  induction ts as [|t ts IH]; simpl; intros H.
  - reflexivity.
  - destruct (String.eqb_spec (to t) A) as [E|_]; [tauto|].
    apply IH. tauto.
Qed.

Lemma lost_unreferenced ts A : ~ In A (references ts) -> lost ts A = 0.
Proof.
  unfold lost, references.
  induction ts as [|t ts IH]; simpl; intros H.
  - reflexivity.
  - destruct (String.eqb_spec (from t) A) as [E|_]; [tauto|].
    apply IH. tauto.
Qed.

Lemma get_of_getitem d k : Py.getitem d k = Some (Py.get d k 0) \/ Py.getitem d k = None.
Proof. unfold Py.get. destruct (Py.getitem d k); auto. Qed.

(** ** The enumeration of the balance table *)

Lemma listed_getitem self A : listed self A = Py.getitem (balances self) A.
Proof.
  unfold listed, Py.items.
  induction (balances self) as [|[k v] d IH]; simpl.
  - reflexivity.
  - destruct (String.eqb k A); auto.
Qed.

Lemma keys_references self A :
  reachable self ->
  In A (Py.keys (balances self)) <-> In A (references (transactions self)).
Proof. intros H. rewrite (ordered_reachable _ H). apply In_first_seen. Qed.

Lemma keys_perform c self :
  exists extra,
    Py.keys (balances (after (perform c self))) = Py.keys (balances self) ++ extra.
Proof.
  rewrite perform_after.
  destruct c as [d f t a|a| |]; try (exists []; now rewrite app_nil_r).
  simpl. unfold transferred. cbv zeta. rewrite !keys_setitem.
  match goal with |- context [Py.contains ?b t] => destruct (Py.contains b t) end;
    destruct (Py.contains (balances self) f).
  - exists []. now rewrite app_nil_r.
  - now exists [f].
  - now exists [t].
  - exists [f; t]. now rewrite <- app_assoc.
Qed.

(** ** The script as a whole *)

(** The module-level statements run to the end without an exception and
    leave the four transfers and the five balances. *)
Lemma script_runs :
  value (script __init__) = inr tt /\
  List.length (transactions (after (script __init__))) = 4%nat /\
  Py.items (balances (after (script __init__))) =
    [ ("External_Reservoir", -100); ("Tank_A", 90); ("Tank_B", 25);
      ("Water_Pump_Source", -20); ("Environment", 5) ] /\
  List.length (stdout (script __init__)) = 74%nat.
Proof. vm_compute. repeat split; reflexivity. Qed.

(** * The claims *)

(** C1, as stated (any numeric amounts), fails on [float] amounts: on a
    fresh ledger [record_transfer("first", "A", "B", 0.1)] followed by
    [record_transfer("second", "A", "C", 0.2)] leaves the balances
    -0.30000000000000004, 0.1 and 0.2, and [verify_conservation()] returns
    -2.7755575615628914e-17, which [==] does not equate with 0.  The
    compensated [sum] of later interpreters returns the same float. *)
Lemma float_amounts_break_conservation :
  let self := OnFloats.after (OnFloats.two_withdrawals OnFloats.__init__) in
  OnFloats.value (OnFloats.two_withdrawals OnFloats.__init__) = inr tt /\
  OnFloats.balances self =
    [("A", -0.30000000000000004); ("B", 0.1); ("C", 0.2)]%float /\
  OnFloats.value (OnFloats.verify_conservation self) =
    inr (-2.7755575615628914e-17)%float /\
  (-2.7755575615628914e-17 =? 0)%float = false /\
  OnFloats.sum_compensated (OnFloats.values (OnFloats.balances self)) =
    (-2.7755575615628914e-17)%float.
Proof. vm_compute. repeat split. Qed.

(** C1, amended: conservation with [int] amounts.  Whatever calls are made
    on a fresh ledger, the amounts being integers, after every one of them
    (after the first [n] calls, for every [n]) [verify_conservation()]
    returns 0, that is, the values of the balance table sum to 0. *)
Theorem conservation_after_every_call (calls : list Call) (n : nat) :
  value (verify_conservation (ledger_after (firstn n calls))) = inr 0 /\
  Py.sum (Py.values (balances (ledger_after (firstn n calls)))) = 0.
Proof.
  pose proof (sum_values_reachable _ (reachable_ledger_after (firstn n calls))) as H.
  split; [|exact H].
  rewrite verify_conservation_run. cbv zeta. simpl value. now rewrite H.
Qed.

(** C2, as stated, fails on [float] amounts: after account A has received
    0.1, sent 0.3 and received 0.2, [get_balance("A")] returns
    2.7755575615628914e-17, while the amounts transferred to A sum to
    0.30000000000000004 and those transferred from it to 0.3, so that the
    sum in minus the sum out, like [expected] of line 108, is
    5.551115123125783e-17.  The compensated [sum] of later interpreters
    returns the same two sums. *)
Lemma float_amounts_break_reconstruction :
  let self := OnFloats.after (OnFloats.in_out_in OnFloats.__init__) in
  let ts := OnFloats.transactions self in
  OnFloats.value (OnFloats.in_out_in OnFloats.__init__) = inr tt /\
  OnFloats.value (OnFloats.get_balance "A" self) =
    inr 2.7755575615628914e-17%float /\
  OnFloats.gained ts "A" = 0.30000000000000004%float /\
  OnFloats.lost ts "A" = 0.3%float /\
  (OnFloats.gained ts "A" - OnFloats.lost ts "A")%float =
    5.551115123125783e-17%float /\
  OnFloats.expected ts "A" = 5.551115123125783e-17%float /\
  (2.7755575615628914e-17 =? 5.551115123125783e-17)%float = false /\
  OnFloats.sum_compensated
    (map OnFloats.amount
       (filter (fun t => String.eqb (OnFloats.to t) "A") ts)) =
    0.30000000000000004%float /\
  OnFloats.sum_compensated
    (map OnFloats.amount
       (filter (fun t => String.eqb (OnFloats.from t) "A") ts)) =
    0.3%float.
Proof. vm_compute. repeat split. Qed.

(** C2, amended: balance reconstruction with [int] amounts.  In the state
    any sequence of calls leads to, the amounts being integers, the history
    is the list of the transfers that were called, and for every account
    [get_balance] returns the sum of the amounts transferred to it minus
    the sum of the amounts transferred from it. *)
Theorem balance_reconstruction (calls : list Call) (A : string) :
  let self := ledger_after calls in
  transactions self = transfers_of calls /\
  value (get_balance A self) =
    inr (gained (transactions self) A - lost (transactions self) A) /\
  value (get_balance A self) = inr (expected (transactions self) A).
Proof.
  intros self.
  pose proof (reconstructs_reachable _ (reachable_ledger_after calls) A) as H.
  fold self in H.
  split; [apply transactions_ledger_after|].
  rewrite get_balance_run. simpl value. unfold expected.
  split; f_equal; lia.
Qed.

(** C3 (the worked scenario).  From an empty ledger, the four transfers give
    the stated balances step by step, [verify_conservation()] returns 0
    after each, and the five balances of the final state sum to 0. *)
Theorem scenario_observations :
  (value (get_balance "Reservoir" scenario1) = inr (-100) /\
   value (get_balance "TankA" scenario1) = inr 100 /\
   value (verify_conservation scenario1) = inr 0) /\
  (value (get_balance "TankA" scenario2) = inr 70 /\
   value (get_balance "TankB" scenario2) = inr 30 /\
   value (verify_conservation scenario2) = inr 0) /\
  (value (get_balance "TankA" scenario3) = inr 90 /\
   value (get_balance "Pump" scenario3) = inr (-20) /\
   value (verify_conservation scenario3) = inr 0) /\
  (value (get_balance "TankB" scenario4) = inr 25 /\
   value (get_balance "Environment" scenario4) = inr 5 /\
   value (verify_conservation scenario4) = inr 0) /\
  Py.keys (balances scenario4) =
    ["Reservoir"; "TankA"; "TankB"; "Pump"; "Environment"] /\
  Py.get (balances scenario4) "Reservoir" 0 + Py.get (balances scenario4) "TankA" 0
    + Py.get (balances scenario4) "TankB" 0 + Py.get (balances scenario4) "Pump" 0
    + Py.get (balances scenario4) "Environment" 0 = 0.
Proof. vm_compute. repeat split; reflexivity. Qed.

(** C4, as stated, fails on [float] amounts: the second assignment adds
    the amount to the rounded difference the first one stored.  An account
    holding 0.1 that transfers 0.4 to itself holds 0.09999999999999998
    afterwards ([(0.1 - 0.4) + 0.4]); one holding 1.0 that transfers 1e16
    to itself holds 0.0 afterwards ([(1.0 - 1e16) + 1e16]). *)
Lemma float_self_transfer_changes_balance :
  OnFloats.value (OnFloats.get_balance "A" OnFloats.holding_a_tenth) =
    inr 0.1%float /\
  OnFloats.value
    (OnFloats.get_balance "A"
       (OnFloats.after
          (OnFloats.record_transfer "self" "A" "A" 0.4%float
             OnFloats.holding_a_tenth))) =
    inr 0.09999999999999998%float /\
  (0.09999999999999998 =? 0.1)%float = false /\
  OnFloats.value (OnFloats.get_balance "A" OnFloats.holding_one) =
    inr 1.0%float /\
  OnFloats.value
    (OnFloats.get_balance "A"
       (OnFloats.after
          (OnFloats.record_transfer "self" "A" "A" 1e16%float
             OnFloats.holding_one))) =
    inr 0.0%float /\
  (0.0 =? 1.0)%float = false.
Proof. vm_compute. repeat split. Qed.

(** C4, amended: self-transfer of an [int] amount.  On a ledger with
    integer balances, a transfer of an integer amount whose source and
    destination are the same account leaves that account's balance as it
    was: the second assignment adds the amount to the balance the first
    one decremented. *)
Theorem self_transfer_net_zero (self : DoubleEntryLedger) (d A : string) (x : Z) :
  value (get_balance A (after (record_transfer d A A x self))) =
  value (get_balance A self).
Proof.
  rewrite record_transfer_run. cbv zeta. rewrite !get_balance_run. simpl.
  rewrite get_transferred, String.eqb_refl. f_equal. lia.
Qed.

(** C5 (frame).  One call to [record_transfer] appends one record, made of
    its four arguments, after the records already there; it performs the
    two assignments to the entries of [from_account] and [to_account]
    (which, when the two accounts differ, then hold the old balance less
    the amount and the old balance plus the amount) and leaves the entry
    and the balance of every other account as they were.
    So the length of the history is the number of [record_transfer] calls
    made. *)
Theorem record_transfer_frame :
  (forall (self : DoubleEntryLedger) (d f t : string) (a : Z),
     let self' := after (record_transfer d f t a self) in
     transactions self' = transactions self ++ [mkTransaction d f t a] /\
     List.length (transactions self') = S (List.length (transactions self)) /\
     firstn (List.length (transactions self)) (transactions self') =
       transactions self /\
     balances self' =
       (let b1 := Py.setitem (balances self) f (Py.get (balances self) f 0 - a) in
        Py.setitem b1 t (Py.get b1 t 0 + a)) /\
     (f <> t ->
      Py.getitem (balances self') f = Some (Py.get (balances self) f 0 - a) /\
      Py.getitem (balances self') t = Some (Py.get (balances self) t 0 + a)) /\
     forall k, k <> f -> k <> t ->
       Py.getitem (balances self') k = Py.getitem (balances self) k /\
       value (get_balance k self') = value (get_balance k self)) /\
  (forall calls : list Call,
     List.length (transactions (ledger_after calls)) = number_of_transfers calls).
Proof.
  split.
  - intros self d f t a self'. subst self'.
    rewrite record_transfer_run. cbv zeta. cbn [after transactions balances].
    repeat split.
    + rewrite length_app. simpl. lia.
    + rewrite firstn_app, Nat.sub_diag, firstn_all. simpl. apply app_nil_r.
    + unfold transferred. cbv zeta.
      rewrite getitem_setitem_other by assumption.
      apply getitem_setitem_same.
    + unfold transferred. cbv zeta.
      rewrite getitem_setitem_same, get_setitem_other by congruence.
      reflexivity.
    + now apply getitem_transferred_other.
    + rewrite !get_balance_run. cbn [value balances]. unfold Py.get.
      now rewrite getitem_transferred_other.
  - intros calls. rewrite transactions_ledger_after.
    unfold number_of_transfers, transfers_of.
    induction calls as [|c calls IH]; simpl.
    + reflexivity.
    + destruct c; simpl; rewrite ?length_app; simpl; lia.
Qed.

Lemma record_transfer_frame_witness :
  Py.getitem
    (balances (after (record_transfer "move" "TankA" "TankB" 30 scenario1)))
    "Reservoir" =
  Py.getitem (balances scenario1) "Reservoir" /\
  value (get_balance "Reservoir"
           (after (record_transfer "move" "TankA" "TankB" 30 scenario1))) =
  value (get_balance "Reservoir" scenario1).
Proof.
  apply (proj2 (proj2 (proj2 (proj2 (proj2
           (proj1 record_transfer_frame scenario1 "move" "TankA" "TankB" 30)))))).
  - discriminate.
  - discriminate.
Defined.


(** C7 (default balance, pure read).  In a reachable state an account that
    no recorded transfer names as source or destination has balance 0; and
    on every state, for every account, [get_balance] leaves the ledger as
    it was and prints nothing. *)
Theorem get_balance_default_and_pure :
  (forall (self : DoubleEntryLedger) (A : string),
     reachable self -> ~ In A (references (transactions self)) ->
     value (get_balance A self) = inr 0) /\
  (forall (self : DoubleEntryLedger) (A : string),
     after (get_balance A self) = self /\ stdout (get_balance A self) = []).
Proof.
  split.
  - intros self A Hr Hn. rewrite get_balance_run. simpl. f_equal.
    rewrite (reconstructs_reachable _ Hr A).
    rewrite gained_unreferenced, lost_unreferenced by assumption. reflexivity.
  - intros self A. now rewrite get_balance_run.
Qed.

Lemma get_balance_default_and_pure_witness :
  value (get_balance "Nobody" (ledger_after there_and_back)) = inr 0.
Proof.
  apply (proj1 get_balance_default_and_pure).
  - apply reachable_ledger_after.
  - vm_compute. intuition discriminate.
Defined.

(** C8 (first-seen order).  In the state any sequence of calls leads to,
    the keys of the balance table, in the order [items()] yields them, are
    the accounts of the history in order of first mention, where each
    transfer mentions its source before its destination.  So of two
    distinct listed accounts, X comes before Y exactly when the first
    mention of X is no later than the first mention of Y.  [print_balances]
    prints one line per item in that order. *)
Theorem balances_in_first_seen_order (calls : list Call) :
  let self := ledger_after calls in
  let accounts := map fst (Py.items (balances self)) in
  let mentions := references (transactions self) in
  accounts = first_seen mentions /\
  (forall X Y, In X accounts -> In Y accounts -> X <> Y ->
     (index X accounts < index Y accounts)%nat <->
     (index X mentions <= index Y mentions)%nat) /\
  stdout (print_balances self) =
    "Current Balances:" :: map balance_line (Py.items (balances self)) ++ [""].
Proof.
  intros self accounts mentions.
  assert (Hord : accounts = first_seen mentions)
    by apply (ordered_reachable _ (reachable_ledger_after calls)).
  split; [exact Hord|]. split; [|now rewrite print_balances_run].
  intros X Y HX HY Hne.
  rewrite Hord, index_first_seen.
  rewrite Hord, In_first_seen in HX.
  split; [lia|]. intros Hle.
  destruct (Nat.eq_dec (index X mentions) (index Y mentions)) as [E|E]; [|lia].
  now apply index_inj in E.
Qed.

Lemma balances_in_first_seen_order_witness :
  (index "A" ["A"; "B"] < index "B" ["A"; "B"])%nat <->
  (index "A" ["A"; "B"; "B"; "A"] <= index "B" ["A"; "B"; "B"; "A"])%nat.
Proof.
  apply (proj1 (proj2 (balances_in_first_seen_order there_and_back))).
  - vm_compute. auto.
  - vm_compute. auto.
  - discriminate.
Defined.

(** C9 (negative amounts).  For distinct accounts A and B, transferring
    [-x] from A to B leaves every account with the balance that
    transferring [x] from B to A leaves it with. *)
Theorem negative_amount_reverses_direction
    (self : DoubleEntryLedger) (d A B : string) (x : Z) (C : string) :
  A <> B ->
  value (get_balance C (after (record_transfer d A B (- x) self))) =
  value (get_balance C (after (record_transfer d B A x self))).
Proof.
  intros _.
  rewrite !record_transfer_run. cbv zeta. rewrite !get_balance_run. simpl.
  rewrite !get_transferred. f_equal.
  destruct (String.eqb A C), (String.eqb B C); lia.
Qed.

Lemma negative_amount_reverses_direction_witness :
  value (get_balance "TankA"
           (after (record_transfer "undo" "TankA" "TankB" (Z.opp 30) scenario2))) =
  value (get_balance "TankA"
           (after (record_transfer "undo" "TankB" "TankA" 30 scenario2))).
Proof.
  apply (negative_amount_reverses_direction scenario2 "undo" "TankA" "TankB" 30 "TankA").
  discriminate.
Defined.

(** C10, as stated, fails: after a transfer from A to B and the same
    amount back, A has balance 0 and is listed with it, while C, which no
    transfer names, is not listed; the enumeration does tell them apart. *)
Lemma zero_balance_account_is_told_apart :
  let self := ledger_after there_and_back in
  In "A" (references (transactions self)) /\
  value (get_balance "A" self) = inr 0 /\
  (In "C" (references (transactions self)) -> False) /\
  value (get_balance "C" self) = inr 0 /\
  Py.items (balances self) = [("A", 0); ("B", 0)] /\
  listed self "A" = Some 0 /\
  listed self "C" = None /\
  (enumeration_cannot_distinguish self "A" "C" -> False).
Proof.
  vm_compute. repeat split; auto; try intuition discriminate.
Qed.

(** C10, amended.  No call removes a key of the balance table or moves
    it: the keys after a call are the keys before it, followed by the new
    ones.  In a reachable state an account named by some recorded transfer
    is listed by the enumeration with its balance, also when that balance
    is 0, and an account named by none is not listed; [get_balance] returns
    0 for an unlisted account, so it is [get_balance], not the enumeration,
    that cannot tell a zero balance from an account never referenced. *)
Theorem balance_entries_are_never_removed :
  (forall (self : DoubleEntryLedger) (c : Call),
     exists extra,
       Py.keys (balances (after (perform c self))) =
       Py.keys (balances self) ++ extra) /\
  (forall (self : DoubleEntryLedger) (c : Call) (k : string),
     In k (Py.keys (balances self)) ->
     In k (Py.keys (balances (after (perform c self))))) /\
  (forall (calls : list Call) (A : string),
     let self := ledger_after calls in
     In A (references (transactions self)) ->
     In A (map fst (Py.items (balances self))) /\
     listed self A = Some (Py.get (balances self) A 0)) /\
  (forall (calls : list Call) (B : string),
     let self := ledger_after calls in
     ~ In B (references (transactions self)) ->
     ~ In B (map fst (Py.items (balances self))) /\
     listed self B = None /\
     value (get_balance B self) = inr 0).
Proof.
  split; [intros self c; apply keys_perform|]. split.
  - intros self c k Hk. destruct (keys_perform c self) as [extra ->].
    apply in_or_app. now left.
  - split; intros calls X self HX;
      pose proof (keys_references self X (reachable_ledger_after calls)) as Hk;
      fold (Py.keys (balances self)).
    + apply Hk in HX. split; [exact HX|].
      rewrite listed_getitem.
      apply getitem_In_keys in HX.
      destruct (get_of_getitem (balances self) X); congruence.
    + assert (Hout : ~ In X (Py.keys (balances self))) by tauto.
      split; [exact Hout|].
      assert (E : Py.getitem (balances self) X = None).
      { destruct (Py.getitem (balances self) X) eqn:E; auto.
        exfalso. apply Hout, getitem_In_keys. congruence. }
      rewrite listed_getitem, get_balance_run. simpl. unfold Py.get.
      now rewrite E.
Qed.

Lemma balance_entries_are_never_removed_witness :
  let self := ledger_after there_and_back in
  In "A" (map fst (Py.items (balances self))) /\
  listed self "A" = Some (Py.get (balances self) "A" 0).
Proof.
  apply (proj1 (proj2 (proj2 balance_entries_are_never_removed)) there_and_back "A").
  vm_compute. auto.
Defined.

(** * Further properties of the program *)

(** ** The order of [str] *)






(** ** [sorted(accounts)] *)





(** ** The reporting functions *)

Lemma for_each_run {A : Type} (xs : list A) (body : A -> Method unit)
    (lines : A -> list string) self :
  (forall x, body x self = mkRun (inr tt) self (lines x)) ->
  for_each xs body self = mkRun (inr tt) self (flat_map lines xs).
Proof.
  intros Hbody. induction xs as [|x xs IH].
  - reflexivity.
  - cbn [for_each flat_map]. eapply bind_run; [apply Hbody | exact IH].
Qed.

Lemma show_status_run self :
  show_status self =
  mkRun (inr tt) self
    (Py.fstring ["Total water in system: ";
                 Py.str (Py.sum (Py.values (balances self))); " liters"]
     :: "Current Balances:"
     :: map balance_line (Py.items (balances self)) ++ [""]).
Proof.
  unfold show_status. etransitivity.
  - eapply bind_run;
      [exact (verify_conservation_run self) | apply print_balances_run].
  - reflexivity.
Qed.

Lemma print_dynamic_verification_run self :
  print_dynamic_verification self =
  mkRun (inr tt) self
    ("=== Verification ==="
     :: flat_map (fun account =>
                    verification_lines (transactions self)
                      (Py.get (balances self) account 0) account)
                 (sorted_set (references (transactions self)))).
Proof.
  unfold print_dynamic_verification. etransitivity.
  - do 2 run_step. cbv beta zeta.
    apply for_each_run with
      (lines := fun account =>
                  verification_lines (transactions self)
                    (Py.get (balances self) account 0) account).
    intros account. etransitivity.
    + run_step. cbv beta zeta. run_step.
      cbv beta. eapply bind_run; [apply get_balance_run | reflexivity].
    + reflexivity.
  - reflexivity.
Qed.

Lemma flat_map_singleton {A B : Type} (f : A -> B) (xs : list A) :
  flat_map (fun x => [f x]) xs = map f xs.
Proof. induction xs as [|x xs IH]; simpl; congruence. Qed.

Lemma print_transaction_history_run self :
  print_transaction_history self =
  mkRun (inr tt) self
    ("=== Transaction History ==="
     :: map history_line (enumerate (transactions self) 1)).
Proof.
  unfold print_transaction_history. etransitivity.
  - do 2 run_step. cbv beta.
    apply for_each_run with (lines := fun item => [history_line item]).
    intros [i t]. reflexivity.
  - cbn [app]. now rewrite flat_map_singleton.
Qed.




(** X3.  With [int] amounts: in the state any sequence of calls leads to,
    the figure [print_dynamic_verification] derives from the history for an
    account ([0 + gained - lost]) is the figure it then prints as actual:
    the two texts of every account agree. *)
Theorem verification_expected_is_actual (calls : list Call) :
  let self := ledger_after calls in
  stdout (print_dynamic_verification self) =
    "=== Verification ==="
    :: flat_map (fun account =>
                   verification_lines (transactions self)
                     (expected (transactions self) account) account)
                (sorted_set (references (transactions self))).
Proof.
  intros self. subst self. rewrite print_dynamic_verification_run. cbn [stdout].
  f_equal. apply flat_map_ext. intros account. f_equal.
  unfold expected.
  rewrite (reconstructs_reachable _ (reachable_ledger_after calls) account).
  lia.
Qed.

(** X4.  With [int] amounts: in the state any sequence of calls leads to,
    [show_status] first prints a total of 0 and then the balances: the
    heading, one text per account in the order of the table, and an empty
    text. *)
Theorem show_status_reports_zero_total (calls : list Call) :
  let self := ledger_after calls in
  stdout (show_status self) =
    "Total water in system: 0 liters"
    :: "Current Balances:"
    :: map balance_line (Py.items (balances self)) ++ [""] /\
  List.length (stdout (show_status self)) =
    (3 + List.length (Py.keys (balances self)))%nat.
Proof.
  intros self. subst self. rewrite show_status_run. cbn [stdout].
  rewrite (sum_values_reachable _ (reachable_ledger_after calls)).
  split; [reflexivity|].
  cbn [List.length]. rewrite length_app, length_map. unfold Py.keys, Py.items.
  rewrite length_map. simpl. lia.
Qed.

(** ** How transfers compose *)

Lemma get_after_transfer d f t a self C :
  Py.get (balances (after (record_transfer d f t a self))) C 0 =
  Py.get (balances self) C 0
  - (if String.eqb f C then a else 0)
  + (if String.eqb t C then a else 0).
Proof.
  rewrite record_transfer_run. cbv zeta. cbn [after balances].
  apply get_transferred.
Qed.

Lemma balances_after_transfer d f t a self :
  balances (after (record_transfer d f t a self)) =
  transferred (balances self) f t a.
Proof. now rewrite record_transfer_run. Qed.

(** X5.  With [int] amounts and [int] balances: two transfers made in
    either order leave every account with the same balance, on every such
    ledger state; only the order of the two records in the history differs
    (and the order in which new accounts enter the table may). *)
Theorem transfers_commute_on_balances
    (self : DoubleEntryLedger) (d1 f1 t1 : string) (a1 : Z)
    (d2 f2 t2 : string) (a2 : Z) (C : string) :
  let one_two :=
    after (record_transfer d2 f2 t2 a2 (after (record_transfer d1 f1 t1 a1 self))) in
  let two_one :=
    after (record_transfer d1 f1 t1 a1 (after (record_transfer d2 f2 t2 a2 self))) in
  value (get_balance C one_two) = value (get_balance C two_one) /\
  transactions one_two =
    transactions self ++ [mkTransaction d1 f1 t1 a1; mkTransaction d2 f2 t2 a2] /\
  transactions two_one =
    transactions self ++ [mkTransaction d2 f2 t2 a2; mkTransaction d1 f1 t1 a1].
Proof.
  cbv zeta. split.
  - rewrite !get_balance_run. cbn [value]. f_equal.
    rewrite !get_after_transfer. lia.
  - rewrite !record_transfer_run. cbv zeta. cbn [after transactions].
    rewrite <- !app_assoc. auto.
Qed.

(** X6.  With [int] amounts and [int] balances: a transfer followed by
    the opposite transfer of the same amount brings every account back to
    the balance it had, on every such ledger state; the history keeps both
    records, and both accounts stay in the table. *)
Theorem opposite_transfer_restores_balances
    (self : DoubleEntryLedger) (d d' f t : string) (a : Z) (C : string) :
  let back :=
    after (record_transfer d' t f a (after (record_transfer d f t a self))) in
  value (get_balance C back) = value (get_balance C self) /\
  transactions back =
    transactions self ++ [mkTransaction d f t a; mkTransaction d' t f a] /\
  listed back f = Some (Py.get (balances self) f 0) /\
  listed back t = Some (Py.get (balances self) t 0).
Proof.
  cbv zeta.
  assert (Hget : forall X,
    Py.get (balances (after (record_transfer d' t f a
                               (after (record_transfer d f t a self))))) X 0 =
    Py.get (balances self) X 0).
  { intros X. rewrite !get_after_transfer.
    destruct (String.eqb f X), (String.eqb t X); lia. }
  repeat split.
  - rewrite !get_balance_run. cbn [value]. now rewrite Hget.
  - rewrite !record_transfer_run. cbv zeta. cbn [after transactions].
    now rewrite <- app_assoc.
  - rewrite listed_getitem, <- Hget, balances_after_transfer.
    apply getitem_transferred_to.
  - rewrite listed_getitem, <- Hget, balances_after_transfer.
    apply getitem_transferred_from.
Qed.

(** X7.  With [int] amounts and [int] balances: two transfers between
    the same accounts in the same direction have the effect on every
    balance of one transfer of the sum of their amounts. *)
Theorem transfers_add_up
    (self : DoubleEntryLedger) (d1 d2 d f t : string) (a b : Z) (C : string) :
  value (get_balance C
           (after (record_transfer d2 f t b (after (record_transfer d1 f t a self))))) =
  value (get_balance C (after (record_transfer d f t (a + b) self))).
Proof.
  rewrite !get_balance_run. cbn [value]. f_equal.
  rewrite !get_after_transfer.
  destruct (String.eqb f C), (String.eqb t C); lia.
Qed.

(** X8.  A transfer of amount 0 changes no balance, yet it is recorded in
    the history and both its accounts are in the table afterwards, listed
    with the balance they had (0 for an account not seen before). *)
Theorem zero_transfer_only_registers
    (self : DoubleEntryLedger) (d f t : string) (C : string) :
  let self' := after (record_transfer d f t 0 self) in
  value (get_balance C self') = value (get_balance C self) /\
  transactions self' = transactions self ++ [mkTransaction d f t 0] /\
  listed self' f = Some (Py.get (balances self) f 0) /\
  listed self' t = Some (Py.get (balances self) t 0).
Proof.
  cbv zeta.
  assert (Hget : forall X,
    Py.get (balances (after (record_transfer d f t 0 self))) X 0 =
    Py.get (balances self) X 0).
  { intros X. rewrite get_after_transfer.
    destruct (String.eqb f X), (String.eqb t X); lia. }
  repeat split.
  - rewrite !get_balance_run. cbn [value]. now rewrite Hget.
  - now rewrite record_transfer_run.
  - rewrite listed_getitem, <- Hget, balances_after_transfer.
    apply getitem_transferred_from.
  - rewrite listed_getitem, <- Hget, balances_after_transfer.
    apply getitem_transferred_to.
Qed.

(** X9.  With an [int] amount: on every ledger state with [int]
    balances, also one whose balances do not sum to 0, a transfer leaves
    the total that [verify_conservation] returns as it was. *)
Theorem transfer_preserves_any_total
    (self : DoubleEntryLedger) (d f t : string) (a : Z) :
  value (verify_conservation (after (record_transfer d f t a self))) =
  value (verify_conservation self).
Proof.
  rewrite !verify_conservation_run. cbv zeta. cbn [value].
  now rewrite balances_after_transfer, sum_values_transferred.
Qed.

(** ** What [record_transfer] prints *)



(** ** The table and the history over sequences of calls *)

Lemma NoDup_first_seen l : NoDup (first_seen l).
Proof.
  induction l as [|x l IH]; simpl.
  - constructor.
  - constructor.
    + rewrite filter_In, String.eqb_refl. intros [_ H]. discriminate.
    + now apply NoDup_filter.
Qed.

(** X11.  In the state any sequence of calls leads to, the balance table
    holds each account at most once, so [print_balances] prints one text per
    account; the accounts are those the recorded transfers name; and the
    balance listed for an account is the one [get_balance] returns. *)
Theorem each_account_listed_once (calls : list Call) :
  let self := ledger_after calls in
  NoDup (map fst (Py.items (balances self))) /\
  (forall A, In A (map fst (Py.items (balances self))) <->
             In A (references (transactions self))) /\
  (forall A v, In (A, v) (Py.items (balances self)) ->
               value (get_balance A self) = inr v) /\
  List.length (stdout (print_balances self)) =
    (2 + List.length (first_seen (references (transactions self))))%nat.
Proof.
  intros self.
  pose proof (ordered_reachable _ (reachable_ledger_after calls)) as Hord.
  fold self in Hord. unfold ordered, Py.keys in Hord.
  unfold Py.items. split; [|split; [|split]].
  - rewrite Hord. apply NoDup_first_seen.
  - intros A. rewrite Hord. apply In_first_seen.
  - assert (Hnd : NoDup (map fst (balances self)))
      by (rewrite Hord; apply NoDup_first_seen).
    intros A v Hin. rewrite get_balance_run. cbn [value]. f_equal.
    unfold Py.get. clear Hord.
    induction (balances self) as [|[k w] b IH]; [contradiction|].
    simpl in *. inversion Hnd as [|? ? Hk Hb]; subst.
    destruct Hin as [E|Hin].
    + injection E as -> ->. now rewrite String.eqb_refl.
    + destruct (String.eqb_spec k A) as [->|_]; [|now apply IH].
      exfalso. apply Hk. change A with (fst (A, v)). now apply in_map.
  - rewrite print_balances_run. cbn [stdout List.length].
    rewrite length_app, length_map. unfold Py.items.
    rewrite <- Hord, length_map. simpl. lia.
Qed.

Lemma each_account_listed_once_witness :
  value (get_balance "B" (ledger_after there_and_back)) = inr 0.
Proof.
  apply (proj1 (proj2 (proj2 (each_account_listed_once there_and_back)))).
  vm_compute. auto.
Defined.

(** X12.  The history only grows at its end, whatever methods are called:
    after further calls it is the history as it was, followed by the
    records of the further transfers, so a record once written is never
    changed, moved or removed. *)
Theorem history_is_append_only (calls more : list Call) :
  transactions (ledger_after (calls ++ more)) =
    transactions (ledger_after calls) ++ transfers_of more /\
  firstn (List.length (transactions (ledger_after calls)))
         (transactions (ledger_after (calls ++ more))) =
    transactions (ledger_after calls) /\
  (forall i r, nth_error (transactions (ledger_after calls)) i = Some r ->
               nth_error (transactions (ledger_after (calls ++ more))) i = Some r).
Proof.
  rewrite !transactions_ledger_after, transfers_of_app.
  repeat split.
  - rewrite firstn_app, Nat.sub_diag, firstn_all. simpl. apply app_nil_r.
  - intros i r H. rewrite nth_error_app1; [assumption|].
    apply nth_error_Some. congruence.
Qed.

Lemma history_is_append_only_witness :
  nth_error (transactions (ledger_after (there_and_back ++ [Call_print_balances])))
            0 =
  Some (mkTransaction "there" "A" "B" 5).
Proof.
  apply (proj2 (proj2 (history_is_append_only there_and_back [Call_print_balances]))).
  reflexivity.
Defined.

(** ** Signs of balances *)

Lemma gained_cons t ts A :
  gained (t :: ts) A = (if String.eqb (to t) A then amount t else 0) + gained ts A.
Proof.
  unfold gained. simpl. destruct (String.eqb (to t) A); simpl.
  - apply sum_cons.
  - lia.
Qed.

Lemma lost_cons t ts A :
  lost (t :: ts) A = (if String.eqb (from t) A then amount t else 0) + lost ts A.
Proof.
  unfold lost. simpl. destruct (String.eqb (from t) A); simpl.
  - apply sum_cons.
  - lia.
Qed.

Lemma gained_nonnegative ts A : amounts_nonnegative ts -> 0 <= gained ts A.
Proof.
  induction 1 as [|t ts Ht _ IH].
  - reflexivity.
  - rewrite gained_cons. destruct (String.eqb (to t) A); lia.
Qed.

Lemma lost_nonnegative ts A : amounts_nonnegative ts -> 0 <= lost ts A.
Proof.
  induction 1 as [|t ts Ht _ IH].
  - reflexivity.
  - rewrite lost_cons. destruct (String.eqb (from t) A); lia.
Qed.

Lemma gained_never_destination ts A : ~ In A (map to ts) -> gained ts A = 0.
Proof.
  induction ts as [|t ts IH]; intros H.
  - reflexivity.
  - rewrite gained_cons. simpl in H.
    destruct (String.eqb_spec (to t) A) as [E|_]; [tauto|].
    rewrite IH; tauto.
Qed.

Lemma lost_never_source ts A : ~ In A (map from ts) -> lost ts A = 0.
Proof.
  induction ts as [|t ts IH]; intros H.
  - reflexivity.
  - rewrite lost_cons. simpl in H.
    destruct (String.eqb_spec (from t) A) as [E|_]; [tauto|].
    rewrite IH; tauto.
Qed.

(** X13.  When every amount transferred is non-negative, an account that
    was never a destination has a balance that is minus what left it,
    hence at most 0, and an account that was never a source has a balance
    that is what reached it, hence at least 0: sources go negative, sinks
    positive (the remark the script prints at line 125). *)
Theorem sources_negative_sinks_positive (calls : list Call) (A : string) :
  amounts_nonnegative (transfers_of calls) ->
  let self := ledger_after calls in
  (~ In A (map to (transactions self)) ->
   value (get_balance A self) = inr (- lost (transactions self) A) /\
   - lost (transactions self) A <= 0) /\
  (~ In A (map from (transactions self)) ->
   value (get_balance A self) = inr (gained (transactions self) A) /\
   0 <= gained (transactions self) A).
Proof.
  intros Hnn self.
  assert (Hts : transactions self = transfers_of calls)
    by apply transactions_ledger_after.
  pose proof (reconstructs_reachable _ (reachable_ledger_after calls) A) as Hrec.
  fold self in Hrec.
  rewrite <- Hts in Hnn.
  split; intros H; rewrite get_balance_run; cbn [value]; rewrite Hrec.
  - rewrite gained_never_destination by assumption.
    pose proof (lost_nonnegative _ A Hnn). split; [f_equal|]; lia.
  - rewrite lost_never_source by assumption.
    pose proof (gained_nonnegative _ A Hnn). split; [f_equal|]; lia.
Qed.

Lemma sources_negative_sinks_positive_witness :
  value (get_balance "External_Reservoir" (ledger_after script_transfers)) =
    inr (- lost (transactions (ledger_after script_transfers)) "External_Reservoir") /\
  - lost (transactions (ledger_after script_transfers)) "External_Reservoir" <= 0.
Proof.
  apply (proj1 (sources_negative_sinks_positive script_transfers "External_Reservoir"
                  ltac:(vm_compute; repeat constructor; discriminate))).
  vm_compute. intuition discriminate.
Defined.

(** ** The entries of the verification report *)

(** X14.  The signed entries [print_dynamic_verification] prints between
    the parentheses for an account are, in history order, one per transfer
    into the account ([+amount]) and one per transfer out of it
    ([-amount]), a transfer from the account to itself giving [+amount] and
    then [-amount]; with [int] amounts, read as numbers they add up to the
    figure printed after the equals sign. *)
Theorem entries_add_up_to_expected (ts : list Transaction) (A : string) :
  txns_of ts A = map entry_text (entries ts A) /\
  Py.sum (map entry_value (entries ts A)) = expected ts A /\
  List.length (txns_of ts A) =
    (List.length (filter (fun t => String.eqb (to t) A) ts) +
     List.length (filter (fun t => String.eqb (from t) A) ts))%nat /\
  (forall d a, txns_of [mkTransaction d A A a] A =
               [Py.fstring ["+"; Py.str a]; Py.fstring ["-"; Py.str a]]).
Proof.
  repeat split.
  - unfold txns_of, entries.
    induction ts as [|t ts IH]; [reflexivity|].
    cbn [flat_map]. rewrite !map_app, IH. f_equal.
    destruct (String.eqb (to t) A), (String.eqb (from t) A); reflexivity.
  - unfold expected, entries.
    induction ts as [|t ts IH]; [reflexivity|].
    cbn [flat_map]. rewrite !map_app, !sum_app, IH, gained_cons, lost_cons.
    destruct (String.eqb (to t) A), (String.eqb (from t) A);
      cbn [map entry_value]; rewrite ?sum_cons, ?sum_nil; lia.
  - unfold txns_of.
    induction ts as [|t ts IH]; [reflexivity|].
    cbn [flat_map filter]. rewrite !length_app, IH.
    destruct (String.eqb (to t) A), (String.eqb (from t) A);
      cbn [List.length]; lia.
  - intros d a. unfold txns_of. cbn [flat_map to from amount].
    now rewrite String.eqb_refl.
Qed.

(** ** The transaction history listing *)

Lemma nth_error_enumerate {A : Type} (xs : list A) (start : Z) (i : nat) :
  nth_error (enumerate xs start) i =
  option_map (fun x => (start + Z.of_nat i, x)) (nth_error xs i).
Proof.
  revert start i. induction xs as [|x xs IH]; intros start [|i]; simpl; auto.
  - do 2 f_equal. lia.
  - rewrite IH. destruct (nth_error xs i); simpl; [|reflexivity].
    do 2 f_equal. lia.
Qed.

Lemma length_enumerate {A : Type} (xs : list A) (start : Z) :
  List.length (enumerate xs start) = List.length xs.
Proof.
  revert start. induction xs as [|x xs IH]; intros start; simpl; auto.
Qed.

(** X15.  The history listing at the end of the script prints its heading
    and then one text per recorded transfer, in the order of recording,
    numbered from 1: the record at position [i] (counting from 0) is
    printed at position [i + 1] of the output with the number [i + 1]. *)
Theorem history_listing_is_numbered_from_one (self : DoubleEntryLedger) :
  stdout (print_transaction_history self) =
    "=== Transaction History ==="
    :: map history_line (enumerate (transactions self) 1) /\
  List.length (stdout (print_transaction_history self)) =
    S (List.length (transactions self)) /\
  (forall i r, nth_error (transactions self) i = Some r ->
     nth_error (stdout (print_transaction_history self)) (S i) =
     Some (history_line (Z.of_nat i + 1, r))).
Proof.
  rewrite print_transaction_history_run. cbn [stdout]. repeat split.
  - cbn [List.length]. now rewrite length_map, length_enumerate.
  - intros i r H. cbn [nth_error].
    rewrite nth_error_map, nth_error_enumerate, H. cbn [option_map].
    now rewrite (Z.add_comm 1).
Qed.

Lemma history_listing_is_numbered_from_one_witness :
  nth_error (stdout (print_transaction_history scenario2)) 2 =
  Some (history_line (Z.of_nat 1 + 1, mkTransaction "move" "TankA" "TankB" 30)).
Proof.
  apply (proj2 (proj2 (history_listing_is_numbered_from_one scenario2))).
  reflexivity.
Defined.

(** ** The script *)

(** X16.  The script runs to its end without an exception.  The ledger it
    leaves is the one its four transfers alone produce: none of the
    reporting statements in between changes it.  Its output ends with the
    history listing, and what it prints at lines 125-127 is true of that
    ledger: the total is 0, the two external sources together stand at
    -120, and the three accounts inside the system hold 90, 25 and 5. *)
Theorem script_outcome :
  let final := after (script __init__) in
  value (script __init__) = inr tt /\
  final = ledger_after script_transfers /\
  value (verify_conservation final) = inr 0 /\
  Py.get (balances final) "External_Reservoir" 0
    + Py.get (balances final) "Water_Pump_Source" 0 = - 120 /\
  Py.get (balances final) "Tank_A" 0 = 90 /\
  Py.get (balances final) "Tank_B" 0 = 25 /\
  Py.get (balances final) "Environment" 0 = 5 /\
  skipn 69 (stdout (script __init__)) = stdout (print_transaction_history final).
Proof. vm_compute. repeat split; reflexivity. Qed.
